(** * VectorStoreCreator: create-or-load orchestration over a document loader,
      a text splitter and a FAISS index

    Shallow embedding of [src/vectorstores_creator.py].  The class is glue
    code: every interesting computation is a call into [os] or into a
    third-party library.  The embedding therefore keeps the program as a tree
    of library calls ([prog]) and interprets it against an arbitrary
    implementation of those libraries ([Platform]); the interpreter records
    every call together with its outcome in a trace.  Properties of the class
    are statements about the returned object, the raised error and the trace,
    and they hold for every platform unless a library contract is listed as a
    hypothesis. *)

From Stdlib Require Import List String Ascii ZArith Bool Lia PeanoNat.
Import ListNotations.

Local Open Scope string_scope.
Local Open Scope list_scope.

Set Implicit Arguments.

(** ** Paths *)

(** [os.path.join] for two components, as [posixpath.join] computes it. *)
Definition startswith_sep (s : string) : bool :=
  match s with
  | String c _ => Ascii.eqb c "/"
  | EmptyString => false
  end.

Fixpoint endswith_sep (s : string) : bool :=
  match s with
  | EmptyString => false
  | String c EmptyString => Ascii.eqb c "/"
  | String _ rest => endswith_sep rest
  end.

Definition os_path_join (a b : string) : string :=
  if startswith_sep b then b
  else if (a =? "")%string || endswith_sep a then (a ++ b)%string
  else (a ++ "/" ++ b)%string.

(** ** The libraries the class calls into *)

(** The objects handed out by the libraries are opaque to the class. *)
Class Library : Type := {
  Document : Type;          (* langchain Document *)
  DirectoryLoader : Type;
  TextSplitter : Type;      (* RecursiveCharacterTextSplitter *)
  Embeddings : Type;        (* HuggingFaceEmbeddings *)
  FAISS : Type;             (* the vector index *)
  Retriever : Type;         (* VectorStoreRetriever *)
  LibraryError : Type       (* an exception raised inside a library *)
}.

Section Component.

Context {L : Library}.

(** A library call returns a value or raises. *)
Inductive outcome (A : Type) : Type :=
| Returns (a : A)
| Throws (x : LibraryError).

Arguments Returns {A} a.
Arguments Throws {A} x.

(** One constructor per library entry point used in the source, with the
    arguments the source passes. *)
Inductive call : Type :=
| os_makedirs (path : string)                       (* exist_ok=True *)
| os_path_exists (path : string)
| os_listdir (path : string)
| DirectoryLoader_new (path : string)
| RecursiveCharacterTextSplitter_new (chunk_size chunk_overlap : Z)
| HuggingFaceEmbeddings_new (model_name : string)
| loader_load (ld : DirectoryLoader)
| split_documents (ts : TextSplitter) (documents : list Document)
| FAISS_from_documents (documents : list Document) (embedding : Embeddings)
| save_local (db : FAISS) (path : string)
| FAISS_load_local (path : string) (embeddings : Embeddings)
                   (allow_dangerous_deserialization : bool)
| as_retriever (db : FAISS) (search_type : string) (search_k : Z).

Definition returns (c : call) : Type :=
  match c with
  | os_makedirs _ => unit
  | os_path_exists _ => bool
  | os_listdir _ => list string
  | DirectoryLoader_new _ => DirectoryLoader
  | RecursiveCharacterTextSplitter_new _ _ => TextSplitter
  | HuggingFaceEmbeddings_new _ => Embeddings
  | loader_load _ => list Document
  | split_documents _ _ => list Document
  | FAISS_from_documents _ _ => FAISS
  | save_local _ _ => unit
  | FAISS_load_local _ _ _ => FAISS
  | as_retriever _ _ _ => Retriever
  end.

(** An implementation of the libraries: a state of the outside world (the
    file system, the indexes in memory) and what each call does to it. *)
Class Platform : Type := {
  World : Type;
  handle : forall c : call, World -> outcome (returns c) * World
}.

(** ** Errors raised by the class itself *)

Inductive Error : Type :=
| FileNotFoundError (msg : string)
| ValueError (msg : string).

(** ** Programs *)

(** A method body: it returns, raises an error of the class, calls a library,
    prints, or reads and assigns the attributes of [self]. *)
Inductive prog (S A : Type) : Type :=
| Ret (a : A)
| Raise (e : Error)
| Call (c : call) (kont : returns c -> prog S A)
| Print (msg : string) (kont : prog S A)
| GetSelf (kont : S -> prog S A)
| SetSelf (s : S) (kont : prog S A).

Arguments Ret {S A} a.
Arguments Raise {S A} e.
Arguments Call {S A} c kont.
Arguments Print {S A} msg kont.
Arguments GetSelf {S A} kont.
Arguments SetSelf {S A} s kont.

Fixpoint bind {S A B} (p : prog S A) (f : A -> prog S B) : prog S B :=
  match p with
  | Ret a => f a
  | Raise e => Raise e
  | Call c kont => Call c (fun x => bind (kont x) f)
  | Print msg kont => Print msg (bind kont f)
  | GetSelf kont => GetSelf (fun s => bind (kont s) f)
  | SetSelf s kont => SetSelf s (bind kont f)
  end.

Definition call_ {S} (c : call) : prog S (returns c) := Call c Ret.
Definition print {S} (msg : string) : prog S unit := Print msg (Ret tt).
Definition get_self {S} : prog S S := GetSelf Ret.
Definition set_self {S} (s : S) : prog S unit := SetSelf s (Ret tt).

Notation "x <- p ;; q" := (bind p (fun x => q))
  (at level 61, p at next level, right associativity).
Notation "p ;; q" := (bind p (fun _ => q))
  (at level 61, right associativity).

(** ** Running a program *)

Inductive event : Type :=
| Called (c : call) (o : outcome (returns c))
| Printed (msg : string).

Definition trace := list event.

Inductive result (A : Type) : Type :=
| Ok (a : A)                       (* the method returned *)
| Raised (e : Error)               (* the class raised *)
| LibraryRaised (x : LibraryError). (* a library raised, the class let it through *)

Arguments Ok {A} a.
Arguments Raised {A} e.
Arguments LibraryRaised {A} x.

(** What a run leaves behind: the result, the attributes of [self] (also when
    an exception ends the method: assignments made before are kept), the
    outside world, and the trace. *)
Context {P : Platform}.

Record run_end (S A : Type) : Type := RunEnd {
  res : result A;
  self_end : S;
  world_end : World;
  events : trace
}.

Definition logged {S A} (e : event) (r : run_end S A) : run_end S A :=
  RunEnd (res r) (self_end r) (world_end r) (e :: events r).

Fixpoint run {S A} (p : prog S A) (s : S) (w : World) : run_end S A :=
  match p with
  | Ret a => RunEnd (Ok a) s w []
  | Raise e => RunEnd (Raised e) s w []
  | Call c kont =>
      match handle c w with
      | (Returns x, w') => logged (Called c (Returns x)) (run (kont x) s w')
      | (Throws x, w') => RunEnd (LibraryRaised x) s w' [Called c (Throws x)]
      end
  | Print msg kont => logged (Printed msg) (run kont s w)
  | GetSelf kont => run (kont s) s w
  | SetSelf s' kont => run kont s' w
  end.

(** ** The class *)

(** The attributes assigned once at lines 34-50 and read by the methods. *)
Record Settings : Type := {
  knowledge_path : string;
  db_path : string;
  db_name : string;
  chunk_size : Z;
  chunk_overlap : Z;
  k : Z;
  loader : DirectoryLoader;
  text_splitter : TextSplitter;
  embedding_model : Embeddings
}.

(** A constructed object: the settings and the two attributes that
    [update_vectorstore] reassigns. *)
Record VectorStoreCreator : Type := {
  settings :> Settings;
  vectorstore : FAISS;
  retriever : Retriever
}.

Definition full_db_path (self : Settings) : string :=
  os_path_join (db_path self) (db_name self).

(* lines 57-65 *)
Definition _load_documents {S} (self : Settings) : prog S (list Document) :=
  print "[RAGDocumentProcessor] Loading documents...";;
  names <- call_ (os_listdir (knowledge_path self));;
  match names with
  | [] =>
      print ("[RAGDocumentProcessor] WARNING: Folder '"
             ++ knowledge_path self ++ "' is empty!")%string;;
      Ret []
  | _ :: _ => call_ (loader_load (loader self))
  end.

(* lines 67-69 *)
Definition _chunk_documents {S} (self : Settings) (documents : list Document)
  : prog S (list Document) :=
  print "[RAGDocumentProcessor] Splitting documents into chunks...";;
  call_ (split_documents (text_splitter self) documents).

(* lines 71-92 *)
Definition _create_vectorstore {S} (self : Settings) : prog S FAISS :=
  present <- call_ (os_path_exists (full_db_path self));;
  if negb present then
    print "[RAGDocumentProcessor] Creating new vectorstore...";;
    documents <- _load_documents self;;
    match documents with
    | [] =>
        Raise (ValueError ("No documents in '" ++ knowledge_path self
          ++ "'. Folder is empty or documents could not be loaded.")%string)
    | _ :: _ =>
        documents <- _chunk_documents self documents;;
        vectordb <- call_ (FAISS_from_documents documents (embedding_model self));;
        call_ (save_local vectordb (full_db_path self));;
        Ret vectordb
    end
  else
    print "[RAGDocumentProcessor] Loading existing vectorstore...";;
    call_ (FAISS_load_local (full_db_path self) (embedding_model self) true).

Definition model_name : string := "intfloat/multilingual-e5-large-instruct".

(* lines 13-55.  A constructor that raises leaves no object behind, so the
   object under construction is the value returned at the end. *)
Definition __init__ {S} (knowledge_path db_name db_path : string)
    (chunk_size chunk_overlap k : Z) : prog S VectorStoreCreator :=
  call_ (os_makedirs db_path);;
  present <- call_ (os_path_exists knowledge_path);;
  if negb present then
    Raise (FileNotFoundError
             ("Directory '" ++ knowledge_path ++ "' does not exist.")%string)
  else
    loader <- call_ (DirectoryLoader_new knowledge_path);;
    text_splitter <-
      call_ (RecursiveCharacterTextSplitter_new chunk_size chunk_overlap);;
    embedding_model <- call_ (HuggingFaceEmbeddings_new model_name);;
    let self :=
      {| knowledge_path := knowledge_path; db_path := db_path;
         db_name := db_name; chunk_size := chunk_size;
         chunk_overlap := chunk_overlap; k := k; loader := loader;
         text_splitter := text_splitter;
         embedding_model := embedding_model |} in
    vectorstore <- _create_vectorstore self;;
    retriever <- call_ (as_retriever vectorstore "similarity" k);;
    Ret {| settings := self; vectorstore := vectorstore;
           retriever := retriever |}.

(** The defaults of the signature (lines 17-20); a call that omits an
    argument gets them. *)
Definition default_db_path : string := "vectorstores".
Definition default_chunk_size : Z := 5000.
Definition default_chunk_overlap : Z := 500.
Definition default_k : Z := 5.

Definition or_default {A} (d : A) (o : option A) : A :=
  match o with Some a => a | None => d end.

Definition construct {S} (knowledge_path db_name : string)
    (db_path : option string) (chunk_size chunk_overlap k : option Z)
  : prog S VectorStoreCreator :=
  __init__ knowledge_path db_name
    (or_default default_db_path db_path)
    (or_default default_chunk_size chunk_size)
    (or_default default_chunk_overlap chunk_overlap)
    (or_default default_k k).

(* lines 94-112.  [force_rebuild or not os.path.exists(...)] does not look at
   the file system when [force_rebuild] is true. *)
Definition update_vectorstore (force_rebuild : bool)
  : prog VectorStoreCreator unit :=
  self <- @get_self VectorStoreCreator;;
  rebuild <-
    (if force_rebuild then Ret true
     else present <- call_ (os_path_exists (full_db_path self));;
          Ret (negb present));;
  if rebuild : bool then
    print ("[RAGDocumentProcessor] "
           ++ (if force_rebuild then "Rebuilding" else "Creating")
           ++ " vectorstore...")%string;;
    documents <- _load_documents self;;
    documents <- _chunk_documents self documents;;
    vectordb <- call_ (FAISS_from_documents documents (embedding_model self));;
    call_ (save_local vectordb (full_db_path self));;
    set_self {| settings := self; vectorstore := vectordb;
                retriever := retriever self |};;
    self <- @get_self VectorStoreCreator;;
    retriever <- call_ (as_retriever vectordb "similarity" (k self));;
    set_self {| settings := self; vectorstore := vectorstore self;
                retriever := retriever |};;
    print "[RAGDocumentProcessor] Vectorstore updated successfully."
  else
    print "[RAGDocumentProcessor] No changes detected or rebuild not requested. Using existing vectorstore.".

(* lines 114-120 *)
Definition load_vectordb : prog VectorStoreCreator FAISS :=
  self <- @get_self VectorStoreCreator;; Ret (vectorstore self).

Definition load_retriever : prog VectorStoreCreator Retriever :=
  self <- @get_self VectorStoreCreator;; Ret (retriever self).

(** Running [p] and then, if it returned, what follows it: the second run
    starts from the object and the world the first one left. *)
Definition then_run {S A B} (r1 : run_end S A)
    (rest : A -> S -> World -> run_end S B) : run_end S B :=
  match res r1 with
  | Ok a =>
      let r2 := rest a (self_end r1) (world_end r1) in
      RunEnd (res r2) (self_end r2) (world_end r2) (events r1 ++ events r2)
  | Raised e => RunEnd (Raised e) (self_end r1) (world_end r1) (events r1)
  | LibraryRaised x =>
      RunEnd (LibraryRaised x) (self_end r1) (world_end r1) (events r1)
  end.

(* lines 123-138: the script.  The body of the [for] loop, the loop over
   [db_names], and the script with its list. *)
Definition main_body {S} (db_name : string) : prog S unit :=
  print ("Initializing vectorstore and retriever for '" ++ db_name
         ++ "'...")%string;;
  creator <- __init__ ("docs/" ++ db_name)%string db_name "vectorstores"
                      4000 300 3;;
  print ("Vectorstore and retriever initialized for '" ++ db_name
         ++ "'")%string;;
  print EmptyString.

Fixpoint main_loop {S} (db_names : list string) : prog S unit :=
  match db_names with
  | [] => Ret tt
  | db_name :: rest => main_body db_name;; main_loop rest
  end.

Definition main {S} : prog S unit := main_loop ["zemsta"].

End Component.

Arguments Returns {L A} a.
Arguments Throws {L A} x.
Arguments Ret {L S A} a.
Arguments Raise {L S A} e.
Arguments Call {L S A} c kont.
Arguments Print {L S A} msg kont.
Arguments GetSelf {L S A} kont.
Arguments SetSelf {L S A} s kont.
Arguments Ok {L A} a.
Arguments Raised {L A} e.
Arguments LibraryRaised {L A} x.

(** ** Vocabulary for traces *)

Section Observations.

Context {L : Library} {P : Platform}.

(** *** Events the class produces *)

Definition store_check (self : Settings) (present : bool) : event :=
  Called (os_path_exists (full_db_path self)) (Returns present).

(** Lines 30-50 when every call returns and [knowledge_path] exists. *)
Definition setup_events (self : Settings) : trace :=
  [ Called (os_makedirs (db_path self)) (Returns tt);
    Called (os_path_exists (knowledge_path self)) (Returns true);
    Called (DirectoryLoader_new (knowledge_path self)) (Returns (loader self));
    Called (RecursiveCharacterTextSplitter_new
              (chunk_size self) (chunk_overlap self))
           (Returns (text_splitter self));
    Called (HuggingFaceEmbeddings_new model_name)
           (Returns (embedding_model self)) ].

(** [_load_documents] when its calls return: the directory lists [names];
    the loader, asked only when [names] is not empty, gives [documents]. *)
Definition load_events (self : Settings) (names : list string)
    (documents : list Document) : trace :=
  Printed "[RAGDocumentProcessor] Loading documents..." ::
  Called (os_listdir (knowledge_path self)) (Returns names) ::
  match names with
  | [] => [Printed ("[RAGDocumentProcessor] WARNING: Folder '"
                    ++ knowledge_path self ++ "' is empty!")%string]
  | _ :: _ => [Called (loader_load (loader self)) (Returns documents)]
  end.

(** Chunking, indexing and saving when the three calls return. *)
Definition index_events (self : Settings) (documents chunks : list Document)
    (db : FAISS) : trace :=
  [ Printed "[RAGDocumentProcessor] Splitting documents into chunks...";
    Called (split_documents (text_splitter self) documents) (Returns chunks);
    Called (FAISS_from_documents chunks (embedding_model self)) (Returns db);
    Called (save_local db (full_db_path self)) (Returns tt) ].

Definition retriever_event (self : VectorStoreCreator) : event :=
  Called (as_retriever (vectorstore self) "similarity" (k self))
         (Returns (retriever self)).

Definition rebuild_message (force_rebuild : bool) : string :=
  ("[RAGDocumentProcessor] "
   ++ (if force_rebuild then "Rebuilding" else "Creating")
   ++ " vectorstore...")%string.

Definition updated_message : string :=
  "[RAGDocumentProcessor] Vectorstore updated successfully.".

Definition no_changes_message : string :=
  "[RAGDocumentProcessor] No changes detected or rebuild not requested. Using existing vectorstore.".

(** *** Classes of events *)

Definition builds (e : event) : bool :=
  match e with
  | Called (FAISS_from_documents _ _) _ => true
  | _ => false
  end.

Definition saves (e : event) : bool :=
  match e with
  | Called (save_local _ _) _ => true
  | _ => false
  end.

Definition writes_files (e : event) : bool :=
  match e with
  | Called (save_local _ _) _ | Called (os_makedirs _) _ => true
  | _ => false
  end.

Definition reads_knowledge (e : event) : bool :=
  match e with
  | Called (os_listdir _) _ | Called (loader_load _) _ => true
  | _ => false
  end.

Definition threw (e : event) : bool :=
  match e with
  | Called _ (Throws _) => true
  | _ => false
  end.

Definition retriever_threw (e : event) : bool :=
  match e with
  | Called (as_retriever _ _ _) (Throws _) => true
  | _ => false
  end.

(** A directory listing or a loader that came back empty. *)
Definition loaded_nothing (e : event) : bool :=
  match e with
  | Called (os_listdir _) (Returns []) => true
  | Called (loader_load _) (Returns []) => true
  | _ => false
  end.

Definition nothing_built_or_saved (tr : trace) : bool :=
  forallb (fun e => negb (builds e || saves e)) tr.

(** The answer of an existence check of [path], if [e] is one. *)
Definition checked (path : string) (e : event) : option bool :=
  match e with
  | Called (os_path_exists p) (Returns present) =>
      if (p =? path)%string then Some present else None
  | _ => None
  end.


(** A construction makes five library calls before [_create_vectorstore];
    the sixth event is the existence check that decides between creating
    and loading. *)
Definition store_decision (full : string) (tr : trace) : option bool :=
  match nth_error tr 5 with
  | Some e => checked full e
  | None => None
  end.


(** [update_vectorstore] consults the file system first, unless forced. *)
Definition first_check (full : string) (tr : trace) : option bool :=
  match tr with
  | e :: _ => checked full e
  | [] => None
  end.

Definition rebuild_wanted (force_rebuild : bool) (full : string) (tr : trace)
  : bool :=
  force_rebuild ||
  match first_check full tr with
  | Some present => negb present
  | None => false
  end.

Definition built_and_saved (self : Settings) (documents : list Document)
    (db : FAISS) (tr : trace) : Prop :=
  exists chunks,
    In (Called (split_documents (text_splitter self) documents)
               (Returns chunks)) tr /\
    In (Called (FAISS_from_documents chunks (embedding_model self))
               (Returns db)) tr /\
    In (Called (save_local db (full_db_path self)) (Returns tt)) tr.

Definition loaded_from_disk (self : Settings) (db : FAISS) (tr : trace) : Prop :=
  In (Called (FAISS_load_local (full_db_path self) (embedding_model self) true)
             (Returns db)) tr.

(** *** The steps of a build *)






(** *** Invariants of a constructed object *)

(** [rt] is what [db.as_retriever(search_type="similarity",
    search_kwargs={"k": kk})] returned. *)
Definition similarity_retriever_of (rt : Retriever) (db : FAISS) (kk : Z)
  : Prop :=
  exists w, fst (handle (as_retriever db "similarity" kk) w) = Returns rt.

Definition in_sync (self : VectorStoreCreator) : Prop :=
  similarity_retriever_of (retriever self) (vectorstore self) (k self).

(** [ts] is what [RecursiveCharacterTextSplitter(chunk_size=size,
    chunk_overlap=overlap)] returned. *)
Definition splitter_of (ts : TextSplitter) (size overlap : Z) : Prop :=
  exists w,
    fst (handle (RecursiveCharacterTextSplitter_new size overlap) w)
    = Returns ts.


(** *** Contracts of the libraries

    What the spec's glossary says of chunks and retrievers is the work of the
    libraries; it enters as a contract on the platform. *)

Section Chunks.

Variable page_content : Document -> string.







End Chunks.

Section Retrieval.

Variable Query : Type.

(** Asking a retriever, and the chunks of an index ordered by similarity to
    a query, most similar first. *)
Variable invoke : Retriever -> Query -> World -> outcome (list Document) * World.
Variable most_similar : FAISS -> Query -> World -> list Document.


End Retrieval.

(** [present w path] observes the file system of [w]; a directory that
    [os.makedirs] made is there, and asking whether a path exists changes
    nothing. *)
Definition os_contract (present : World -> string -> bool) : Prop :=
  (forall path w w',
      handle (os_makedirs path) w = (Returns tt, w') ->
      present w' path = true) /\
  (forall path o w w',
      handle (os_path_exists path) w = (o, w') ->
      forall q, present w' q = present w q).

(** *** Two claims as the specification words them *)

Definition saves_to (path : string) (e : event) : bool :=
  match e with
  | Called (save_local _ p) (Returns _) => (p =? path)%string
  | _ => false
  end.

Definition loads_from (path : string) (e : event) : bool :=
  match e with
  | Called (FAISS_load_local p _ _) (Returns _) => (p =? path)%string
  | _ => false
  end.

(** Every construction decides on the store path [full]: it builds and saves
    to [full] when the path is absent, it loads from [full] and neither
    builds nor saves when the path is there. *)
Definition create_or_load_always (full : string) (tr : trace) : Prop :=
  match store_decision full tr with
  | Some false => existsb builds tr = true /\ existsb (saves_to full) tr = true
  | Some true =>
      existsb (loads_from full) tr = true /\ nothing_built_or_saved tr = true
  | None => False
  end.


(** *** More vocabulary: what a call asked for *)

Definition constructs (e : event) : bool :=
  match e with
  | Called (DirectoryLoader_new _) _
  | Called (RecursiveCharacterTextSplitter_new _ _) _
  | Called (HuggingFaceEmbeddings_new _) _ => true
  | _ => false
  end.

Definition reloads (e : event) : bool :=
  match e with
  | Called (FAISS_load_local _ _ _) _ => true
  | _ => false
  end.

Definition makes_directory (e : event) : bool :=
  match e with
  | Called (os_makedirs _) _ => true
  | _ => false
  end.

Definition checks_existence (e : event) : bool :=
  match e with
  | Called (os_path_exists _) _ => true
  | _ => false
  end.

Definition save_returned (e : event) : bool :=
  match e with
  | Called (save_local _ _) (Returns _) => true
  | _ => false
  end.

Definition listed_empty (e : event) : bool :=
  match e with
  | Called (os_listdir _) (Returns []) => true
  | _ => false
  end.

Definition calls_loader (e : event) : bool :=
  match e with
  | Called (loader_load _) _ => true
  | _ => false
  end.

(** The arguments of a call, if [e] is a call of that kind. *)
Definition load_request (e : event) : option (string * Embeddings * bool) :=
  match e with
  | Called (FAISS_load_local path em allow) _ => Some (path, em, allow)
  | _ => None
  end.

Definition build_request (e : event) : option (list Document * Embeddings) :=
  match e with
  | Called (FAISS_from_documents chunks em) _ => Some (chunks, em)
  | _ => None
  end.

Definition save_request (e : event) : option (FAISS * string) :=
  match e with
  | Called (save_local db path) _ => Some (db, path)
  | _ => None
  end.

Definition split_request (e : event) : option (TextSplitter * list Document) :=
  match e with
  | Called (split_documents ts documents) _ => Some (ts, documents)
  | _ => None
  end.

Definition loader_request (e : event) : option DirectoryLoader :=
  match e with
  | Called (loader_load ld) _ => Some ld
  | _ => None
  end.

Definition listing_request (e : event) : option string :=
  match e with
  | Called (os_listdir path) _ => Some path
  | _ => None
  end.

Definition splitter_settings (e : event) : option (Z * Z) :=
  match e with
  | Called (RecursiveCharacterTextSplitter_new size overlap) _ =>
      Some (size, overlap)
  | _ => None
  end.

Definition retriever_request (e : event) : option (FAISS * string * Z) :=
  match e with
  | Called (as_retriever db search_type kk) _ => Some (db, search_type, kk)
  | _ => None
  end.

Definition directory_request (e : event) : option string :=
  match e with
  | Called (os_makedirs path) _ => Some path
  | _ => None
  end.

Definition knowledge_request (e : event) : option string :=
  match e with
  | Called (DirectoryLoader_new path) _ => Some path
  | _ => None
  end.

(** [em] is what [HuggingFaceEmbeddings(model_name=...)] returned for the
    model the class names. *)
Definition embeddings_of (em : Embeddings) : Prop :=
  exists w, fst (handle (HuggingFaceEmbeddings_new model_name) w) = Returns em.

(** A file system on which the class can find again what it saved:
    [save_local] leaves its path in place, no call of the libraries removes a
    path, and [os.path.exists] answers what is there. *)
Definition store_contract (present : World -> string -> bool) : Prop :=
  (forall db path w o w',
      handle (save_local db path) w = (Returns o, w') ->
      present w' path = true) /\
  (forall c w o w' q,
      handle c w = (o, w') -> present w q = true -> present w' q = true) /\
  (forall path w b w',
      handle (os_path_exists path) w = (Returns b, w') -> b = present w path).

(** What every construction of the script asks for. *)
Definition script_request (names : list string) (e : event) : Prop :=
  (forall size overlap, splitter_settings e = Some (size, overlap) ->
     size = 4000%Z /\ overlap = 300%Z) /\
  (forall db search_type kk,
     retriever_request e = Some (db, search_type, kk) ->
     search_type = "similarity" /\ kk = 3%Z) /\
  (forall path, directory_request e = Some path -> path = "vectorstores") /\
  (forall path, knowledge_request e = Some path ->
     exists n, In n names /\ path = ("docs/" ++ n)%string) /\
  (forall db path, save_request e = Some (db, path) ->
     exists n, In n names /\ path = os_path_join "vectorstores" n).

End Observations.

(** ** A small platform to run the class on

    An in-memory file system and deliberately simple libraries: documents
    are their text, the splitter cuts fixed windows, the index is the list of
    its chunks.  It serves to execute the class on concrete inputs. *)

Module Demo.

#[export] Instance library : Library := {|
  Document := string;
  DirectoryLoader := string;             (* the directory it reads *)
  TextSplitter := nat * nat;             (* chunk size, overlap *)
  Embeddings := string;                  (* the model name *)
  FAISS := list string;                  (* the indexed chunks *)
  Retriever := list string * string * Z; (* index, search type, k *)
  LibraryError := string                 (* the exception's class name *)
|}.

Record Files : Type := {
  dirs : list (string * list (string * string)); (* directory, its files *)
  stores : list (string * list string)           (* saved indexes *)
}.

Fixpoint lookup {A} (key : string) (l : list (string * A)) : option A :=
  match l with
  | [] => None
  | (k0, v) :: rest => if (k0 =? key)%string then Some v else lookup key rest
  end.

Definition exists_in (w : Files) (path : string) : bool :=
  match lookup path (dirs w), lookup path (stores w) with
  | None, None => false
  | _, _ => true
  end.

(** Windows of [size] characters, each starting [step] after the previous
    one; the last window is the one that reaches the end of the text. *)
Fixpoint windows (fuel start size step : nat) (text : string) : list string :=
  match fuel with
  | O => []
  | S fuel' =>
      substring start size text ::
      (if (String.length text <=? start + size)%nat then []
       else windows fuel' (start + step) size step text)
  end.

Definition split_text (ts : nat * nat) (text : string) : list string :=
  match text with
  | EmptyString => []
  | _ => windows (String.length text) 0 (fst ts) (fst ts - snd ts) text
  end.

Definition handler (c : call) : Files -> outcome (returns c) * Files :=
  match c as c0 return Files -> outcome (returns c0) * Files with
  | os_makedirs path => fun w =>
      match path, lookup path (dirs w), lookup path (stores w) with
      | EmptyString, _, _ => (Throws "FileNotFoundError", w)
      | _, _, Some _ => (Throws "FileExistsError", w)
      | _, Some _, None => (Returns tt, w)
      | _, None, None =>
          (Returns tt, {| dirs := (path, []) :: dirs w; stores := stores w |})
      end
  | os_path_exists path => fun w => (Returns (exists_in w path), w)
  | os_listdir path => fun w =>
      match lookup path (dirs w) with
      | Some files => (Returns (map fst files), w)
      | None => (Throws "FileNotFoundError", w)
      end
  | DirectoryLoader_new path => fun w => (Returns path, w)
  | RecursiveCharacterTextSplitter_new size overlap => fun w =>
      if ((0 <=? overlap) && (overlap <? size))%Z
      then (Returns (Z.to_nat size, Z.to_nat overlap), w)
      else (Throws "ValueError", w)
  | HuggingFaceEmbeddings_new name => fun w => (Returns name, w)
  | loader_load ld => fun w =>
      match lookup ld (dirs w) with
      | Some files => (Returns (map snd files), w)
      | None => (Throws "FileNotFoundError", w)
      end
  | split_documents ts documents => fun w =>
      (Returns (flat_map (split_text ts) documents), w)
  | FAISS_from_documents documents _ => fun w =>
      match documents with
      | [] => (Throws "IndexError", w)
      | _ :: _ => (Returns documents, w)
      end
  | save_local db path => fun w =>
      (Returns tt, {| dirs := dirs w; stores := (path, db) :: stores w |})
  | FAISS_load_local path _ _ => fun w =>
      match lookup path (stores w) with
      | Some db => (Returns db, w)
      | None => (Throws "RuntimeError", w)
      end
  | as_retriever db search_type search_k => fun w =>
      (Returns (db, search_type, search_k), w)
  end.

#[export] Instance platform : Platform := {|
  World := Files;
  handle := handler
|}.



(** A knowledge directory with one document, and one without any. *)
Definition akt1 : string :=
  "Mocium panie, me wezwanie wykonaj, jak ci kazano.".

Definition library_world : Files := {|
  dirs := [("docs/zemsta", [("akt1.txt", akt1)]); ("docs/empty", [])];
  stores := []
|}.

(** [akt1] in windows of 10 characters that overlap by 3. *)
Definition chunks_of_akt1 : list string :=
  ["Mocium pan"; "panie, me "; "me wezwani"; "anie wykon"; "konaj, jak";
   "jak ci kaz"; "kazano."].

(** The object built by a first construction in [library_world], spelled
    out, and the world that construction leaves. *)
Definition first_run : run_end unit VectorStoreCreator :=
  run (construct "docs/zemsta" "zemsta" None (Some 10%Z) (Some 3%Z) None)
      tt library_world.

Definition zemsta : VectorStoreCreator := {|
  settings := {|
    knowledge_path := "docs/zemsta"; db_path := "vectorstores";
    db_name := "zemsta"; chunk_size := 10; chunk_overlap := 3; k := 5;
    loader := "docs/zemsta"; text_splitter := (10, 3);
    embedding_model := model_name |};
  vectorstore := chunks_of_akt1;
  retriever := (chunks_of_akt1, "similarity", 5%Z)
|}.

Definition after_first_run : Files := world_end first_run.


(** The same libraries on a machine short of memory: a retriever over an
    index of more than 7 chunks does not fit. *)
Definition cramped_handler (c : call) : Files -> outcome (returns c) * Files :=
  match c as c0 return Files -> outcome (returns c0) * Files with
  | as_retriever db search_type search_k => fun w =>
      if (7 <? List.length db)%nat then (Throws "MemoryError", w)
      else handler (as_retriever db search_type search_k) w
  | c0 => handler c0
  end.

Definition cramped : Platform := {|
  World := Files;
  handle := cramped_handler
|}.

(** [after_first_run] once a second act has been added to the documents. *)
Definition akt2 : string := "Niech sie dzieje wola nieba.".

Definition grown_world : Files := {|
  dirs := [("vectorstores", []);
           ("docs/zemsta", [("akt1.txt", akt1); ("akt2.txt", akt2)])];
  stores := stores after_first_run
|}.

End Demo.

(** * Properties *)

Section Facts.

Context {L : Library} {P : Platform}.

(** Proofs follow a run call by call: each library call either returns, and
    the run goes on, or throws, and the run ends there. *)
Ltac step_as x :=
  match goal with
  | |- context [handle ?c ?w] =>
      let w' := fresh "w" in let E := fresh "E" in
      destruct (handle c w) as [[x|x] w'] eqn:E; cbn - [String.append os_path_join In];
      [|try discriminate]
  end.
Tactic Notation "step" ident(x) := step_as x.

Ltac walk :=
  repeat first
    [ match goal with
      | |- context [handle ?c ?w] =>
          let E := fresh "E" in
          destruct (handle c w) as [[?|?] ?] eqn:E; cbn - [String.append os_path_join In]
      end
    | match goal with
      | |- context [if negb ?b then _ else _] =>
          is_var b; destruct b; cbn - [String.append os_path_join In]
      | |- context [match ?l with [] => _ | _ :: _ => _ end] =>
          is_var l; destruct l; cbn - [String.append os_path_join In]
      end ].

Ltac enter :=
  unfold construct, __init__, update_vectorstore, _create_vectorstore,
    _load_documents, _chunk_documents, load_vectordb, load_retriever;
  cbn - [String.append os_path_join In].

Ltac call_eq :=
  match goal with
  | E : handle _ _ = _ |- _ => exact (f_equal fst E)
  end.

Ltac by_call :=
  unfold in_sync, similarity_retriever_of, splitter_of;
  cbn - [String.append os_path_join In];
  first [ eexists; call_eq | eexists; eexists; call_eq ].

Lemma init_ok S kp name dbp cs co kk (s : S) w o :
  res (run (__init__ kp name dbp cs co kk) s w) = Ok o ->
  knowledge_path o = kp /\ db_name o = name /\ db_path o = dbp /\
  chunk_size o = cs /\ chunk_overlap o = co /\ k o = kk /\
  splitter_of (text_splitter o) cs co /\ in_sync o /\
  ((exists names documents chunks,
      documents <> [] /\ names <> [] /\
      events (run (__init__ kp name dbp cs co kk) s w) =
        setup_events o ++ store_check o false
        :: Printed "[RAGDocumentProcessor] Creating new vectorstore..."
        :: load_events o names documents
        ++ index_events o documents chunks (vectorstore o)
        ++ [retriever_event o])
   \/ events (run (__init__ kp name dbp cs co kk) s w) =
        setup_events o ++
        [ store_check o true;
          Printed "[RAGDocumentProcessor] Loading existing vectorstore...";
          Called (FAISS_load_local (full_db_path o) (embedding_model o) true)
                 (Returns (vectorstore o));
          retriever_event o ]).
Proof.
  enter.
  step u. step present.
  destruct present; cbn - [String.append os_path_join In]; [|discriminate].
  step ld. step ts. step em. step there.
  destruct there; cbn - [String.append os_path_join In].
  - step db. step rt.
    intros [= <-]. cbn. destruct u. repeat split; auto; by_call.
  - step names.
    destruct names as [|n ns]; cbn - [String.append os_path_join In]; [discriminate|].
    step docs.
    destruct docs as [|d ds]; cbn - [String.append os_path_join In]; [discriminate|].
    step chunks. step db. step u'. step rt.
    intros [= <-]. cbn. destruct u, u'. repeat split; auto; try by_call.
    left. exists (n :: ns), (d :: ds), chunks. repeat split; auto; discriminate.
Qed.

Ltac found := cbn [In]; repeat first [left; reflexivity | right].

Ltac units :=
  repeat match goal with
    | u : returns (os_makedirs _) |- _ => destruct u
    | u : returns (save_local _ _) |- _ => destruct u
    end.

Ltac settle :=
  units;
  cbn - [String.append os_path_join In];
  rewrite ?String.eqb_refl;
  cbn - [String.append os_path_join In];
  try discriminate; try reflexivity; try (intros; discriminate).

(** C1 (amended).  A construction that returns an object has decided on the
    path [os.path.join(db_path, db_name)]: when the path was absent it loaded
    a non-empty list of documents, chunked it, built an index from the chunks
    and saved it to that path; when the path was there it loaded the index
    from that path and neither built nor saved.  A construction that finds
    the path absent and loads no document raises [ValueError] with nothing
    built or saved; one that raises [FileNotFoundError] decided nothing; and
    once the path was found, nothing is built or saved even if a library
    fails afterwards. *)
Theorem create_or_load_decision S kp name dbp cs co kk (s : S) w :
  let r := run (__init__ kp name dbp cs co kk) s w in
  let decision := store_decision (os_path_join dbp name) (events r) in
  match res r with
  | Ok o =>
      (decision = Some false /\
       exists documents,
         documents <> [] /\
         In (Called (loader_load (loader o)) (Returns documents)) (events r) /\
         built_and_saved o documents (vectorstore o) (events r))
      \/
      (decision = Some true /\
       loaded_from_disk o (vectorstore o) (events r) /\
       nothing_built_or_saved (events r) = true)
  | Raised (ValueError _) =>
      decision = Some false /\
      existsb loaded_nothing (events r) = true /\
      nothing_built_or_saved (events r) = true
  | Raised (FileNotFoundError _) => decision = None
  | LibraryRaised _ =>
      decision = Some true -> nothing_built_or_saved (events r) = true
  end.
Proof.
  enter. unfold store_decision, built_and_saved, loaded_from_disk, full_db_path.
  walk; settle.
  - right. repeat split. found.
  - repeat split.
  - repeat split.
  - left. split; [reflexivity|].
    eexists. split; [|split; [found | eexists; repeat split; found]].
    discriminate.
Qed.

(** C2.  [update_vectorstore] rebuilds exactly when [force_rebuild] is true or
    the existence check of the store path answers no.  When it does, nothing
    but that check precedes the rebuild, and a call that returns has read
    the knowledge directory, chunked the documents, built an index from the
    chunks, saved it to the store path and made it the object's
    [vectorstore], in that order; the class raises nothing of its own, and a
    call that does not return ended in a library's exception.  When it
    does not, the run is the existence check alone: the knowledge directory
    is not read, nothing is built or saved and the object is unchanged. *)
Theorem rebuild_exactly_when_forced_or_absent fr (self : VectorStoreCreator) w :
  let r := run (update_vectorstore fr) self w in
  if rebuild_wanted fr (full_db_path self) (events r) then
    exists rest,
      events r = (if fr then [] else [store_check self false])
                 ++ Printed (rebuild_message fr) :: rest /\
      match res r with
      | Ok _ =>
          exists names documents chunks,
            (names = [] -> documents = []) /\
            rest = load_events self names documents
                   ++ index_events self documents chunks
                        (vectorstore (self_end r))
                   ++ [retriever_event (self_end r); Printed updated_message]
            /\ settings (self_end r) = settings self
      | Raised _ => False
      | LibraryRaised _ => existsb threw rest = true
      end
  else
    forallb (fun e => negb (reads_knowledge e || builds e || saves e))
            (events r) = true /\
    self_end r = self /\
    (events r = [store_check self true; Printed no_changes_message]
     \/ exists x,
          events r = [Called (os_path_exists (full_db_path self)) (Throws x)]).
Proof.
  enter. unfold rebuild_wanted, first_check, full_db_path.
  destruct fr; cbn - [String.append os_path_join In]; walk; settle.
  all: try (eexists; split; [reflexivity|]; cbn;
            first [ reflexivity
                  | exists [], []; eexists; repeat split; reflexivity
                  | eexists (_ :: _), _, _;
                    split; [intros H; discriminate H|]; split; reflexivity ]).
  all: repeat split; eauto.
Qed.

(** What [update_vectorstore] never touches, and what it keeps. *)
Lemma update_keeps fr (self : VectorStoreCreator) w :
  let r := run (update_vectorstore fr) self w in
  settings (self_end r) = settings self /\
  ((exists db, similarity_retriever_of (retriever self) db (k self)) ->
   exists db, similarity_retriever_of (retriever (self_end r)) db (k self)) /\
  (in_sync self -> existsb retriever_threw (events r) = false ->
   in_sync (self_end r)).
Proof.
  enter. unfold in_sync.
  destruct fr; cbn - [String.append os_path_join In]; walk; settle.
  all: repeat split; auto; try (intros; discriminate).
  all: intros; by_call.
Qed.


(** C9.  With [force_rebuild] false and the store path found,
    [update_vectorstore] returns having done nothing: the object, with all
    its attributes, is the one it was called on, the only library call is
    the existence check, and no file is written. *)
Theorem update_without_rebuild_is_noop fr (self : VectorStoreCreator) w :
  let r := run (update_vectorstore fr) self w in
  fr = false ->
  first_check (full_db_path self) (events r) = Some true ->
  res r = Ok tt /\
  self_end r = self /\
  events r = [store_check self true; Printed no_changes_message] /\
  forallb (fun e => negb (writes_files e)) (events r) = true.
Proof.
  enter. unfold first_check, full_db_path. intros ->.
  cbn - [String.append os_path_join In].
  step present. rewrite String.eqb_refl.
  destruct present; cbn - [String.append os_path_join In].
  - repeat split.
  - discriminate.
Qed.

(** C7.  A constructor that returns leaves [retriever] the similarity
    retriever of [vectorstore] with parameter [k]; [update_vectorstore]
    keeps it so in every call in which [as_retriever] itself does not
    throw, whether the call returns or a library fails before. *)
Theorem retriever_in_sync :
  (forall S kp name dbp cs co kk (s : S) w o,
      res (run (__init__ kp name dbp cs co kk) s w) = Ok o -> in_sync o) /\
  (forall fr (self : VectorStoreCreator) w,
      let r := run (update_vectorstore fr) self w in
      in_sync self ->
      existsb retriever_threw (events r) = false ->
      in_sync (self_end r)).
Proof.
  split.
  - intros S kp name dbp cs co kk s w o H. apply init_ok in H. tauto.
  - intros fr self w. apply update_keeps.
Qed.

(** C10.  A constructor that raises [FileNotFoundError] has called
    [os.makedirs(db_path)] first, and that call returned: on a file system
    where a directory just made exists, [db_path] is there when the
    constructor fails. *)
Theorem db_path_created_before_validation
    (present : World -> string -> bool) (Hos : os_contract present)
    S kp name dbp cs co kk (s : S) w msg :
  let r := run (__init__ kp name dbp cs co kk) s w in
  res r = Raised (FileNotFoundError msg) ->
  events r = [ Called (os_makedirs dbp) (Returns tt);
               Called (os_path_exists kp) (Returns false) ] /\
  present (world_end r) dbp = true.
Proof.
  destruct Hos as [Hmk Hex]. enter.
  step u. destruct u. step there.
  destruct there; cbn - [String.append os_path_join In].
  - walk; settle.
  - intros _. split; [reflexivity|].
    rewrite (Hex _ _ _ _ E0). eapply Hmk; eassumption.
Qed.











(** ** Further properties of the methods *)

Ltac requests :=
  repeat constructor; intros;
  repeat match goal with
    | H : _ = Some _ |- _ => cbn in H; try discriminate H; injection H as <-
    end;
  subst; repeat split; try reflexivity; try by_call.

(** X1.  [update_vectorstore] never reassigns a setting: the paths, the
    sizes, [k], the loader, the splitter and the embedding model of the
    object are after the call what they were before, whether the call
    returns or fails. *)
Theorem update_never_touches_settings fr (self : VectorStoreCreator) w :
  settings (self_end (run (update_vectorstore fr) self w)) = settings self.
Proof. apply update_keeps. Qed.

(** X2.  What [update_vectorstore] leaves in the object.  As long as
    [save_local] has not returned the object is untouched.  Once it has,
    [vectorstore] is the index just saved; [retriever] is the retriever made
    from it when the call returns, and still the old one when the call fails
    (which is then the failure of [as_retriever]). *)
Theorem update_end_states fr (self : VectorStoreCreator) w :
  let r := run (update_vectorstore fr) self w in
  if existsb save_returned (events r) then
    exists db,
      In (Called (save_local db (full_db_path self)) (Returns tt)) (events r) /\
      match res r with
      | Ok _ =>
          exists rt,
            In (Called (as_retriever db "similarity" (k self)) (Returns rt))
               (events r) /\
            self_end r = {| settings := self; vectorstore := db;
                            retriever := rt |}
      | LibraryRaised x =>
          In (Called (as_retriever db "similarity" (k self)) (Throws x))
             (events r) /\
          self_end r = {| settings := self; vectorstore := db;
                          retriever := retriever self |}
      | Raised _ => False
      end
  else self_end r = self.
Proof.
  enter. unfold full_db_path.
  destruct fr; cbn - [String.append os_path_join In]; walk; settle.
  all: eexists; split; [found|];
    first [split; [found | reflexivity]
          | eexists; split; [found | reflexivity]].
Qed.

(** X3.  [update_vectorstore] works with what the constructor made: it
    constructs no loader, splitter or embedding model, never loads an index
    from disk and never creates a directory; it lists [knowledge_path], asks
    the object's loader, splits with the object's splitter, embeds with the
    object's embedding model, saves to the store path and makes a similarity
    retriever with the object's [k]. *)
Theorem update_reuses_what_the_constructor_made fr
    (self : VectorStoreCreator) w :
  Forall (fun e =>
    constructs e = false /\ reloads e = false /\ makes_directory e = false /\
    (forall path, listing_request e = Some path ->
       path = knowledge_path self) /\
    (forall ld, loader_request e = Some ld -> ld = loader self) /\
    (forall ts documents, split_request e = Some (ts, documents) ->
       ts = text_splitter self) /\
    (forall chunks em, build_request e = Some (chunks, em) ->
       em = embedding_model self) /\
    (forall db path, save_request e = Some (db, path) ->
       path = full_db_path self) /\
    (forall db search_type kk,
       retriever_request e = Some (db, search_type, kk) ->
       search_type = "similarity" /\ kk = k self))
    (events (run (update_vectorstore fr) self w)).
Proof.
  enter. unfold full_db_path.
  destruct fr; cbn - [String.append os_path_join In]; walk; requests.
Qed.

(** X4.  In a constructor every index is loaded from the store path with
    [allow_dangerous_deserialization=True], every index is saved to the
    store path, and loading and building both use the embedding model that
    this constructor made for the model the class names. *)
Theorem constructor_store_requests S kp name dbp cs co kk (s : S) w :
  Forall (fun e =>
    (forall path em allow, load_request e = Some (path, em, allow) ->
       path = os_path_join dbp name /\ allow = true /\ embeddings_of em) /\
    (forall chunks em, build_request e = Some (chunks, em) ->
       embeddings_of em) /\
    (forall db path, save_request e = Some (db, path) ->
       path = os_path_join dbp name))
    (events (run (__init__ kp name dbp cs co kk) s w)).
Proof.
  enter. unfold full_db_path, embeddings_of. walk; requests.
Qed.

(** X5.  When the directory listing comes back empty the loader is not
    called, in the constructor and in [update_vectorstore] alike. *)
Theorem empty_listing_skips_the_loader :
  (forall S kp name dbp cs co kk (s : S) w,
      let r := run (__init__ kp name dbp cs co kk) s w in
      existsb listed_empty (events r) = true ->
      existsb calls_loader (events r) = false) /\
  (forall fr (self : VectorStoreCreator) w,
      let r := run (update_vectorstore fr) self w in
      existsb listed_empty (events r) = true ->
      existsb calls_loader (events r) = false).
Proof.
  split.
  - enter. intros. revert H. walk; settle.
  - enter. intros fr self w.
    destruct fr; cbn - [String.append os_path_join In]; walk; settle.
Qed.

(** X6.  A constructor that raises [ValueError] has by then created
    [db_path], found [knowledge_path], made the loader, the splitter and the
    embedding model, found the store path absent and read the documents:
    its trace is exactly those calls, and the listing or the load came back
    empty. *)
Theorem value_error_comes_after_setup S kp name dbp cs co kk (s : S) w msg :
  let r := run (__init__ kp name dbp cs co kk) s w in
  res r = Raised (ValueError msg) ->
  exists ld ts em names documents,
    let self := {| knowledge_path := kp; db_path := dbp; db_name := name;
                   chunk_size := cs; chunk_overlap := co; k := kk;
                   loader := ld; text_splitter := ts;
                   embedding_model := em |} in
    events r = setup_events self ++ store_check self false
               :: Printed "[RAGDocumentProcessor] Creating new vectorstore..."
               :: load_events self names documents /\
    (names = [] \/ documents = []) /\
    splitter_of ts cs co /\ embeddings_of em.
Proof.
  enter. unfold embeddings_of.
  walk; settle.
  - intros _. do 3 eexists. exists [], []. cbn.
    repeat split; auto; by_call.
  - intros _. do 3 eexists. eexists (_ :: _), []. cbn.
    repeat split; auto; by_call.
Qed.

(** ** Runs in sequence *)

Lemma logged_then_run S A B (e : event) (r : run_end S A)
    (rest : A -> S -> World -> run_end S B) :
  logged e (then_run r rest) = then_run (logged e r) rest.
Proof. unfold then_run, logged. cbn. destruct (res r); reflexivity. Qed.

Lemma run_bind S A B (p : prog S A) (f : A -> prog S B) : forall s w,
  run (bind p f) s w = then_run (run p s w) (fun a => run (f a)).
Proof.
  induction p as [a | e | c kont IH | msg kont IH | kont IH | s' kont IH];
    intros s w; cbn.
  - unfold then_run. cbn. destruct (run (f a) s w). reflexivity.
  - reflexivity.
  - destruct (handle c w) as [[x|x] w']; [|reflexivity].
    rewrite IH. apply logged_then_run.
  - rewrite IH. apply logged_then_run.
  - apply IH.
  - apply IH.
Qed.

(** ** The store on a file system that keeps what is saved *)

Section Store.

Variable present : World -> string -> bool.
Hypothesis Hstore : store_contract present.

Ltac kept :=
  repeat match goal with
    | Hp : present ?w ?q = true, E : handle _ ?w = (_, ?w') |- _ =>
        lazymatch goal with
        | _ : present w' q = true |- _ => fail
        | _ => assert (present w' q = true)
                 by (exact (proj1 (proj2 Hstore) _ _ _ _ _ E Hp))
        end
    end.

Ltac saved :=
  match goal with
  | E : handle (save_local _ ?p) _ = (Returns _, ?w') |- _ =>
      assert (present w' p = true) by (exact (proj1 Hstore _ _ _ _ _ E))
  end.

Ltac found_present :=
  match goal with
  | E : handle (os_path_exists ?p) ?w = (Returns true, _) |- _ =>
      assert (present w p = true)
        by (symmetry; exact (proj2 (proj2 Hstore) _ _ _ _ E))
  end.

Ltac absurd_check :=
  match goal with
  | E : handle (os_path_exists ?p) ?w = (Returns false, _),
    Hp : present ?w ?p = true |- _ =>
      rewrite <- (proj2 (proj2 Hstore) _ _ _ _ E) in Hp; discriminate Hp
  end.

(** A constructor that returns leaves the store in place. *)
Lemma constructed_store_present S kp name dbp cs co kk (s : S) w o :
  res (run (__init__ kp name dbp cs co kk) s w) = Ok o ->
  present (world_end (run (__init__ kp name dbp cs co kk) s w))
          (os_path_join dbp name) = true.
Proof.
  enter. unfold full_db_path.
  walk; settle; intros _; first [saved | found_present]; kept; assumption.
Qed.

(** So does an [update_vectorstore] that returns. *)
Lemma updated_store_present fr (self : VectorStoreCreator) w :
  res (run (update_vectorstore fr) self w) = Ok tt ->
  present (world_end (run (update_vectorstore fr) self w))
          (full_db_path self) = true.
Proof.
  enter. unfold full_db_path.
  destruct fr; cbn - [String.append os_path_join In]; walk; settle;
    intros _; first [saved | found_present]; kept; assumption.
Qed.

(** With the store in place a constructor does not build. *)
Lemma present_store_is_loaded S kp name dbp cs co kk (s : S) w :
  present w (os_path_join dbp name) = true ->
  let r := run (__init__ kp name dbp cs co kk) s w in
  store_decision (os_path_join dbp name) (events r) <> Some false /\
  nothing_built_or_saved (events r) = true /\
  forallb (fun e => negb (reads_knowledge e)) (events r) = true /\
  (forall o, res r = Ok o -> loaded_from_disk o (vectorstore o) (events r)).
Proof.
  intros Hp. enter. unfold store_decision, loaded_from_disk, full_db_path.
  walk; settle; kept; try absurd_check.
  all: repeat split; try discriminate; try reflexivity.
  all: intros o [= <-]; found.
Qed.

(** With the store in place an unforced update does nothing. *)
Lemma present_store_is_kept (self : VectorStoreCreator) w :
  present w (full_db_path self) = true ->
  let r := run (update_vectorstore false) self w in
  self_end r = self /\
  rebuild_wanted false (full_db_path self) (events r) = false /\
  forallb (fun e => negb (reads_knowledge e || builds e || saves e))
          (events r) = true.
Proof.
  intros Hp. enter. unfold rebuild_wanted, first_check, full_db_path in *.
  walk; settle; kept; try absurd_check.
  all: repeat split.
Qed.

(** X7.  On a file system that keeps what is saved, a constructor called
    for a store that an earlier constructor has built or loaded does not
    build again: it finds the path, loads the index from it, and neither
    reads the knowledge directory nor builds nor saves, whatever its other
    arguments and whatever the directory now holds. *)
Theorem second_construction_loads
    S kp name dbp cs co kk (s : S) w o
    S' kp' cs' co' kk' (s' : S') :
  let r1 := run (__init__ kp name dbp cs co kk) s w in
  res r1 = Ok o ->
  let r2 := run (__init__ kp' name dbp cs' co' kk') s' (world_end r1) in
  store_decision (os_path_join dbp name) (events r2) <> Some false /\
  nothing_built_or_saved (events r2) = true /\
  forallb (fun e => negb (reads_knowledge e)) (events r2) = true /\
  (forall o2, res r2 = Ok o2 ->
     loaded_from_disk o2 (vectorstore o2) (events r2)).
Proof.
  intros r1 H r2. apply present_store_is_loaded.
  eapply constructed_store_present. exact H.
Qed.

(** X8.  On such a file system, [update_vectorstore()] called without
    [force_rebuild] right after a constructor that returned does nothing:
    the object is unchanged, no rebuild is wanted and the knowledge
    directory is not read. *)
Theorem update_after_construction_is_noop
    S kp name dbp cs co kk (s : S) w o :
  let r1 := run (__init__ kp name dbp cs co kk) s w in
  res r1 = Ok o ->
  let r2 := run (update_vectorstore false) o (world_end r1) in
  self_end r2 = o /\
  rebuild_wanted false (full_db_path o) (events r2) = false /\
  forallb (fun e => negb (reads_knowledge e || builds e || saves e))
          (events r2) = true.
Proof.
  intros r1 H r2. apply present_store_is_kept.
  pose proof (constructed_store_present _ _ _ _ _ _ _ _ H) as Hp.
  apply init_ok in H. destruct H as (_ & Hn & Hd & _).
  unfold full_db_path. rewrite Hn, Hd. exact Hp.
Qed.

(** X9.  On such a file system, an unforced [update_vectorstore] right
    after an [update_vectorstore] that returned does nothing, also when the
    first one rebuilt: a rebuild is not repeated until it is forced or the
    store is removed. *)
Theorem update_after_update_is_noop fr (self : VectorStoreCreator) w :
  let r1 := run (update_vectorstore fr) self w in
  res r1 = Ok tt ->
  let r2 := run (update_vectorstore false) (self_end r1) (world_end r1) in
  self_end r2 = self_end r1 /\
  rebuild_wanted false (full_db_path self) (events r2) = false /\
  forallb (fun e => negb (reads_knowledge e || builds e || saves e))
          (events r2) = true.
Proof.
  intros r1 H r2.
  assert (Hset : full_db_path (self_end r1) = full_db_path self).
  { unfold full_db_path, r1, db_path, db_name.
    rewrite (proj1 (update_keeps fr self w)). reflexivity. }
  rewrite <- Hset. apply present_store_is_kept.
  rewrite Hset. apply updated_store_present. exact H.
Qed.

End Store.

(** ** The script *)

Lemma script_request_more names names' e :
  (forall n, In n names -> In n names') ->
  script_request names e -> script_request names' e.
Proof.
  intros Hsub (H1 & H2 & H3 & H4 & H5).
  split; [exact H1|]. split; [exact H2|]. split; [exact H3|]. split.
  - intros path H. destruct (H4 _ H) as (n & Hn & Hp). exists n. auto.
  - intros db path H. destruct (H5 _ _ H) as (n & Hn & Hp). exists n. auto.
Qed.

Lemma main_body_requests S n (s : S) w :
  Forall (script_request [n]) (events (run (main_body n) s w)).
Proof.
  unfold main_body, script_request. enter. unfold full_db_path.
  walk; repeat constructor; intros;
    repeat match goal with
      | H : _ = Some _ |- _ => cbn in H; try discriminate H; injection H as <-
      end;
    subst; try reflexivity; exists n; split; auto; left; reflexivity.
Qed.

Lemma then_run_events S A B (Q : event -> Prop) (r : run_end S A)
    (rest : A -> S -> World -> run_end S B) :
  Forall Q (events r) ->
  (forall a s w, Forall Q (events (rest a s w))) ->
  Forall Q (events (then_run r rest)).
Proof.
  intros H1 H2. unfold then_run. destruct (res r); cbn; auto.
  apply Forall_app. auto.
Qed.

(** X10.  The script builds every document set with chunk size 4000,
    overlap 300 and [k = 3], not with the defaults of the class; every set
    is read from [docs/<name>] and stored under [vectorstores]. *)
Theorem script_overrides_the_defaults S names (s : S) w :
  Forall (script_request names) (events (run (main_loop names) s w)).
Proof.
  revert s w. induction names as [|n rest IH]; intros s w.
  - constructor.
  - cbn [main_loop]. rewrite run_bind. apply then_run_events.
    + eapply Forall_impl; [|apply main_body_requests].
      intros e. apply script_request_more.
      intros m [<-|[]]. left. reflexivity.
    + intros _ s' w'. eapply Forall_impl; [|apply IH].
      intros e. apply script_request_more. intros m Hm. right. exact Hm.
Qed.

Lemma main_loop_app S names later : forall (s : S) w,
  run (main_loop (names ++ later)) s w
  = then_run (run (main_loop names) s w) (fun _ => run (main_loop later)).
Proof.
  induction names as [|n rest IH]; intros s w.
  - cbn. unfold then_run. cbn. destruct (run (main_loop later) s w). reflexivity.
  - cbn [main_loop app]. rewrite !run_bind. unfold then_run at 1 3.
    destruct (res (run (main_body n) s w)) eqn:E; cbn; try reflexivity.
    rewrite IH. unfold then_run. cbn.
    destruct (res (run (main_loop rest) _ _)); cbn; try reflexivity.
    rewrite app_assoc. reflexivity.
Qed.

(** X11.  The script stops at the first document set whose construction
    fails: the sets listed after it are not touched, the run is the same
    whatever follows the failing name. *)
Theorem script_stops_at_first_failure S names later (s : S) w :
  res (run (main_loop names) s w) <> Ok tt ->
  run (main_loop (names ++ later)) s w = run (main_loop names) s w.
Proof.
  intros H. rewrite main_loop_app. unfold then_run.
  destruct (run (main_loop names) s w) as [r s' w' tr]. cbn in *.
  destruct r as [[]| |]; [contradiction H; reflexivity | |]; reflexivity.
Qed.

End Facts.

(** * The demo platform honours the contracts *)

Section Strings.




End Strings.

Section DemoContracts.

Import Demo.




Lemma lookup_head {A} key (v : A) rest : lookup key ((key, v) :: rest) = Some v.
Proof. cbn. rewrite String.eqb_refl. reflexivity. Qed.

Lemma demo_os_contract : os_contract exists_in.
Proof.
  split.
  - intros path w w' H. cbn in H. unfold exists_in.
    destruct path as [|c path]; [discriminate|].
    destruct (lookup (String c path) (dirs w)) eqn:Ed,
             (lookup (String c path) (stores w)) eqn:Es;
      try discriminate; injection H as <-.
    + rewrite Ed. reflexivity.
    + cbn [dirs stores]. rewrite lookup_head. reflexivity.
  - intros path o w w' H q. cbn in H. injection H as _ <-. reflexivity.
Qed.

End DemoContracts.

(** * The class at work on the demo platform *)

Section DemoRuns.

Import Demo.

(** The outcomes of the runs used below. *)
Example first_run_returns :
  res (run (S := unit) (__init__ "docs/zemsta" "zemsta" "vectorstores" 10 3 5)
           tt library_world) = Ok zemsta.
Proof. reflexivity. Qed.

Example empty_run_raises :
  res (run (S := unit) (__init__ "docs/empty" "zemsta" "vectorstores" 5000 500 5)
           tt library_world)
  = Raised (ValueError
      "No documents in 'docs/empty'. Folder is empty or documents could not be loaded.").
Proof. reflexivity. Qed.

Example missing_run_raises :
  res (run (S := unit) (__init__ "docs/none" "zemsta" "vectorstores" 5000 500 5)
           tt library_world)
  = Raised (FileNotFoundError "Directory 'docs/none' does not exist.").
Proof. reflexivity. Qed.

Example forced_update_returns :
  res (run (update_vectorstore true) zemsta after_first_run) = Ok tt.
Proof. reflexivity. Qed.



(** Witness of C1: the first construction found no store, built one from
    the chunks of [akt1] and saved it. *)
Lemma create_or_load_decision_witness :
  let r := run (S := unit)
             (__init__ "docs/zemsta" "zemsta" "vectorstores" 10 3 5)
             tt library_world in
  let decision :=
    store_decision (os_path_join "vectorstores" "zemsta") (events r) in
  res r = Ok zemsta /\
  ((decision = Some false /\
    exists documents,
      documents <> [] /\
      In (Called (loader_load (loader zemsta)) (Returns documents)) (events r) /\
      built_and_saved zemsta documents (vectorstore zemsta) (events r))
   \/
   (decision = Some true /\
    loaded_from_disk zemsta (vectorstore zemsta) (events r) /\
    nothing_built_or_saved (events r) = true)).
Proof.
  pose proof (create_or_load_decision (S := unit)
                "docs/zemsta" "zemsta" "vectorstores" 10 3 5 tt library_world)
    as H.
  cbv zeta in H |- *. rewrite first_run_returns in H.
  split; [exact first_run_returns | exact H].
Defined.

(** Counterexample to C1 as worded: with an empty knowledge directory the
    store path is absent and yet nothing is built or saved. *)
Lemma create_or_load_not_always :
  ~ create_or_load_always "vectorstores/zemsta"
      (events (run (S := unit)
                 (__init__ "docs/empty" "zemsta" "vectorstores" 5000 500 5)
                 tt library_world)).
Proof. lazy. intros [H _]. discriminate H. Qed.

(** Witness of C2: a forced rebuild of [zemsta] chunks, indexes and saves. *)
Lemma rebuild_exactly_when_forced_or_absent_witness :
  let r := run (update_vectorstore true) zemsta after_first_run in
  res r = Ok tt /\
  exists rest,
    events r = [] ++ Printed (rebuild_message true) :: rest /\
    exists names documents chunks,
      (names = [] -> documents = []) /\
      rest = load_events zemsta names documents
             ++ index_events zemsta documents chunks (vectorstore (self_end r))
             ++ [retriever_event (self_end r); Printed updated_message]
      /\ settings (self_end r) = settings zemsta.
Proof.
  pose proof (rebuild_exactly_when_forced_or_absent true zemsta after_first_run)
    as H.
  cbv zeta in H |- *. cbn [rebuild_wanted orb] in H.
  rewrite forced_update_returns in H.
  split; [exact forced_update_returns | exact H].
Defined.



(** Witness of C9: with the store in place, an unforced update of [zemsta]
    does nothing. *)
Lemma update_without_rebuild_is_noop_witness :
  let r := run (update_vectorstore false) zemsta after_first_run in
  first_check (full_db_path zemsta) (events r) = Some true /\
  res r = Ok tt /\
  self_end r = zemsta /\
  events r = [store_check zemsta true; Printed no_changes_message] /\
  forallb (fun e => negb (writes_files e)) (events r) = true.
Proof.
  cbv zeta. split; [reflexivity|].
  apply update_without_rebuild_is_noop; reflexivity.
Defined.

(** Witness of C7: [zemsta] is in sync after its construction and after a
    forced rebuild. *)
Lemma retriever_in_sync_witness :
  in_sync zemsta /\
  in_sync (self_end (run (update_vectorstore true) zemsta after_first_run)).
Proof.
  assert (H0 : in_sync zemsta).
  { apply (proj1 (@retriever_in_sync library platform) unit
             "docs/zemsta" "zemsta" "vectorstores" 10%Z 3%Z 5%Z tt library_world).
    exact first_run_returns. }
  split; [exact H0|].
  apply (proj2 (@retriever_in_sync library platform) true zemsta
               after_first_run H0).
  reflexivity.
Defined.

(** Witness of C10: [vectorstores] is not there before the failing
    construction and is there after it. *)
Lemma db_path_created_before_validation_witness :
  let r := run (S := unit)
             (__init__ "docs/none" "zemsta" "vectorstores" 5000 500 5)
             tt library_world in
  exists_in library_world "vectorstores" = false /\
  res r = Raised (FileNotFoundError "Directory 'docs/none' does not exist.") /\
  events r = [ Called (os_makedirs "vectorstores") (Returns tt);
               Called (os_path_exists "docs/none") (Returns false) ] /\
  exists_in (world_end r) "vectorstores" = true.
Proof.
  cbv zeta. split; [reflexivity|]. split; [exact missing_run_raises|].
  apply (db_path_created_before_validation demo_os_contract)
    with (msg := "Directory 'docs/none' does not exist.").
  exact missing_run_raises.
Defined.





End DemoRuns.

(** * More of the class at work on the demo platform *)

Section MoreDemoRuns.

Import Demo.

Lemma exists_in_more_dirs w entry q :
  exists_in w q = true ->
  exists_in {| dirs := entry :: dirs w; stores := stores w |} q = true.
Proof.
  unfold exists_in. destruct entry as [p files]. cbn.
  destruct (p =? q)%string; [reflexivity | exact (fun H => H)].
Qed.

Lemma exists_in_more_stores w entry q :
  exists_in w q = true ->
  exists_in {| dirs := dirs w; stores := entry :: stores w |} q = true.
Proof.
  unfold exists_in. destruct entry as [p db]. cbn.
  destruct (p =? q)%string; [|exact (fun H => H)].
  intros _. destruct (lookup q (dirs w)); reflexivity.
Qed.

Lemma demo_store_contract : store_contract exists_in.
Proof.
  repeat split.
  - intros db path w o w' H. cbn in H. injection H as _ <-.
    unfold exists_in. cbn [dirs stores]. rewrite lookup_head.
    destruct (lookup path (dirs w)); reflexivity.
  - intros c w o w' q H Hq.
    destruct c; cbn in H;
      repeat match type of H with
        | context [match ?x with _ => _ end] => destruct x
        end;
      injection H as _ <-;
      auto using exists_in_more_dirs, exists_in_more_stores.
  - intros path w b w' H. cbn in H. injection H as <- _. reflexivity.
Qed.

(** The outcomes of the runs used below. *)
Example cramped_update_fails :
  res (@run library cramped _ _ (update_vectorstore true) zemsta grown_world)
  = LibraryRaised "MemoryError".
Proof. reflexivity. Qed.

Example cramped_update_saves :
  existsb save_returned
    (events (@run library cramped _ _ (update_vectorstore true) zemsta
                  grown_world)) = true.
Proof. reflexivity. Qed.

Example script_fails_on_missing_set :
  res (run (S := unit) (main_loop ["none"]) tt library_world)
  = Raised (FileNotFoundError "Directory 'docs/none' does not exist.").
Proof. reflexivity. Qed.

(** Witness of X2: on the cramped platform a forced rebuild over the grown
    documents saves the new index and then fails in [as_retriever]: the
    object holds the new index and the old retriever. *)
Lemma update_end_states_witness :
  let r := @run library cramped _ _ (update_vectorstore true) zemsta
                grown_world in
  res r = LibraryRaised "MemoryError" /\
  exists db,
    In (Called (save_local db (full_db_path zemsta)) (Returns tt)) (events r) /\
    In (Called (as_retriever db "similarity" (k zemsta)) (Throws "MemoryError"))
       (events r) /\
    self_end r = {| settings := zemsta; vectorstore := db;
                    retriever := retriever zemsta |}.
Proof.
  pose proof (@update_end_states library cramped true zemsta grown_world) as H.
  cbv zeta in H |- *.
  rewrite cramped_update_saves, cramped_update_fails in H.
  split; [exact cramped_update_fails | exact H].
Defined.

(** Witness of X5: the constructor over the empty directory lists it and
    does not call the loader. *)
Lemma empty_listing_skips_the_loader_witness :
  let r := run (S := unit)
             (__init__ "docs/empty" "zemsta" "vectorstores" 5000 500 5)
             tt library_world in
  existsb listed_empty (events r) = true /\
  existsb calls_loader (events r) = false.
Proof.
  cbv zeta. split; [reflexivity|].
  apply (proj1 (@empty_listing_skips_the_loader library platform)).
  reflexivity.
Defined.

(** Witness of X6: the constructor over the empty directory. *)
Lemma value_error_comes_after_setup_witness :
  let r := run (S := unit)
             (__init__ "docs/empty" "zemsta" "vectorstores" 5000 500 5)
             tt library_world in
  res r = Raised (ValueError
    "No documents in 'docs/empty'. Folder is empty or documents could not be loaded.")
  /\
  exists ld ts em names documents,
    let self := {| knowledge_path := "docs/empty"; db_path := "vectorstores";
                   db_name := "zemsta"; chunk_size := 5000;
                   chunk_overlap := 500; k := 5;
                   loader := ld; text_splitter := ts;
                   embedding_model := em |} in
    events r = setup_events self ++ store_check self false
               :: Printed "[RAGDocumentProcessor] Creating new vectorstore..."
               :: load_events self names documents /\
    (names = [] \/ documents = []) /\
    splitter_of ts 5000 500 /\ embeddings_of em.
Proof.
  cbv zeta. split; [exact empty_run_raises|].
  exact (value_error_comes_after_setup
           "docs/empty" "zemsta" "vectorstores" 5000 500 5 tt library_world
           empty_run_raises).
Defined.

(** Witness of X7: after the first construction, a construction for the
    same store over the empty directory, with other sizes, loads it. *)
Lemma second_construction_loads_witness :
  let r1 := run (S := unit)
              (__init__ "docs/zemsta" "zemsta" "vectorstores" 10 3 5)
              tt library_world in
  let r2 := run (S := unit)
              (__init__ "docs/empty" "zemsta" "vectorstores" 5000 500 2)
              tt (world_end r1) in
  res r1 = Ok zemsta /\
  store_decision (os_path_join "vectorstores" "zemsta") (events r2)
  <> Some false /\
  nothing_built_or_saved (events r2) = true /\
  forallb (fun e => negb (reads_knowledge e)) (events r2) = true /\
  (forall o2, res r2 = Ok o2 ->
     loaded_from_disk o2 (vectorstore o2) (events r2)).
Proof.
  cbv zeta. split; [exact first_run_returns|].
  exact (second_construction_loads demo_store_contract
           "docs/zemsta" "zemsta" "vectorstores" 10 3 5 tt library_world
           "docs/empty" 5000 500 2 tt first_run_returns).
Defined.

(** Witness of X8: an unforced update right after the first construction. *)
Lemma update_after_construction_is_noop_witness :
  let r1 := run (S := unit)
              (__init__ "docs/zemsta" "zemsta" "vectorstores" 10 3 5)
              tt library_world in
  let r2 := run (update_vectorstore false) zemsta (world_end r1) in
  res r1 = Ok zemsta /\
  self_end r2 = zemsta /\
  rebuild_wanted false (full_db_path zemsta) (events r2) = false /\
  forallb (fun e => negb (reads_knowledge e || builds e || saves e))
          (events r2) = true.
Proof.
  cbv zeta. split; [exact first_run_returns|].
  exact (update_after_construction_is_noop demo_store_contract
           "docs/zemsta" "zemsta" "vectorstores" 10 3 5 tt library_world
           first_run_returns).
Defined.

(** Witness of X9: a forced rebuild of [zemsta], then an unforced update. *)
Lemma update_after_update_is_noop_witness :
  let r1 := run (update_vectorstore true) zemsta after_first_run in
  let r2 := run (update_vectorstore false) (self_end r1) (world_end r1) in
  res r1 = Ok tt /\
  self_end r2 = self_end r1 /\
  rebuild_wanted false (full_db_path zemsta) (events r2) = false /\
  forallb (fun e => negb (reads_knowledge e || builds e || saves e))
          (events r2) = true.
Proof.
  cbv zeta. split; [exact forced_update_returns|].
  exact (update_after_update_is_noop demo_store_contract
           true zemsta after_first_run forced_update_returns).
Defined.

(** Witness of X11: the script fails on a set without documents directory;
    a set listed after it changes nothing. *)
Lemma script_stops_at_first_failure_witness :
  res (run (S := unit) (main_loop ["none"]) tt library_world)
  = Raised (FileNotFoundError "Directory 'docs/none' does not exist.") /\
  run (S := unit) (main_loop (["none"] ++ ["zemsta"])) tt library_world
  = run (main_loop ["none"]) tt library_world.
Proof.
  split; [exact script_fails_on_missing_set|].
  apply script_stops_at_first_failure.
  rewrite script_fails_on_missing_set. discriminate.
Defined.

End MoreDemoRuns.
